(** * The server listing view of djchat: [ServerListViewSet.list]

    A shallow embedding of [src/djchat/server/views.py].  The view reads five
    query parameters, narrows [self.queryset] stage by stage, and hands the
    final queryset to the serializer, or raises.

    - Python strings are [string]s whose characters are code points below 256.
    - [request.query_params] is a finite map from keys to values; [.get] is
      the map lookup, [None] for a key that was not sent.
    - [self.queryset] is the state the method threads: every stage reads it
      and assigns it again.  Exceptions end the method and leave the state as
      the last assignment made it. *)

From Stdlib Require Import Ascii.
From stdpp Require Import base option numbers list strings gmap.

Open Scope string_scope.
Open Scope Z_scope.

(** ** Python values *)

Module python.

(** Truth value of what [dict.get] returns: [None] and the empty string are
    false, every other string is true. *)
Definition truthy (v : option string) : bool :=
  match v with
  | None => false
  | Some s => bool_decide (s ≠ "")
  end.

(** The blanks [int] strips, among the code points below 256: TAB..CR and
    the space, and of the others NEL and the no-break space.  FS..US (28..31)
    are blanks for [str.isspace] but not for [int], which refuses them. *)
Definition isspace (c : ascii) : bool :=
  let n := Z.of_N (N_of_ascii c) in
  ((9 <=? n) && (n <=? 13)) || (n =? 32) || (n =? 133) || (n =? 160).

Definition digit_value (c : ascii) : option Z :=
  let n := Z.of_N (N_of_ascii c) in
  if (48 <=? n) && (n <=? 57) then Some (n - 48) else None.

Fixpoint lstrip (s : list ascii) : list ascii :=
  match s with
  | c :: s' => if isspace c then lstrip s' else s
  | [] => []
  end.

Definition strip (s : list ascii) : list ascii :=
  reverse (lstrip (reverse (lstrip s))).

(** Decimal digits with single underscores between them.  [s] starts where a
    digit is due; [acc] is the value and [n] the number of digits read. *)
Fixpoint digits (acc : Z) (n : nat) (s : list ascii) : option (Z * nat) :=
  match s with
  | [] => None
  | c :: s' =>
      match digit_value c with
      | None => None
      | Some d =>
          let acc' := 10 * acc + d in
          match s' with
          | [] => Some (acc', S n)
          | c' :: s'' =>
              if Ascii.eqb c' "_" then digits acc' (S n) s''
              else digits acc' (S n) s'
          end
      end
  end.

(** [sys.get_int_max_str_digits()], the interpreter's default. *)
Definition int_max_str_digits : nat := 4300.

Definition unsigned (s : list ascii) : option Z :=
  match digits 0 0 s with
  | Some (v, n) => if decide (n ≤ int_max_str_digits)%nat then Some v else None
  | None => None
  end.

(** [int(s)] for a string [s]: [None] stands for [ValueError].  Blanks are
    stripped on both sides, one sign may lead, and the rest is read in base
    ten. *)
Definition int (s : string) : option Z :=
  match strip (String.list_ascii_of_string s) with
  | c :: r =>
      if Ascii.eqb c "-" then Z.opp <$> unsigned r
      else if Ascii.eqb c "+" then unsigned r
      else unsigned (c :: r)
  | [] => None
  end.

End python.

(** ** The collaborators: models, querysets, requests, exceptions *)

Module models.

(** Modelled from the spec: [models.py] is not among the sources.  A server
    has an integer [id], the name of the category it refers to (a many-to-one
    reference) and its [member]s, a set of user ids (a many-to-many relation:
    one row per server and user). *)
Record Server := {
  id : Z;
  category__name : string;
  member : gset Z
}.

(** [Count("member")] for one server: the rows of the member relation that
    join it. *)
Definition Count_member (s : Server) : nat := size (member s).

End models.

Module exceptions.

(** What [list] can end with instead of a response.  [AuthenticationFailed]
    and [ValidationError] are rest_framework's API exceptions;
    [ValueError] is Python's and [DatabaseError] is [django.db]'s (the
    database refusing a query), and no handler of the framework converts
    either. *)
Inductive Exception :=
| AuthenticationFailed
| ValidationError (detail : string)
| ValueError
| DatabaseError.

Definition is_APIException (e : Exception) : bool :=
  match e with
  | AuthenticationFailed | ValidationError _ => true
  | ValueError | DatabaseError => false
  end.

End exceptions.

Module query.
Import models exceptions.

(** A queryset: the rows it selects, in the order the database returns them,
    and whether [num_members] was annotated on it. *)
Record QuerySet := {
  rows : list Server;
  annotated : bool
}.

(** [Server.objects.all()] over the table [objects]. *)
Definition all (objects : list Server) : QuerySet :=
  {| rows := objects; annotated := false |}.

(** [.filter(...)] with a condition on single rows: the rows that meet it,
    in order. *)
Definition narrow (P : Server → Prop) `{!∀ s, Decision (P s)}
    (q : QuerySet) : QuerySet :=
  {| rows := filter P (rows q); annotated := annotated q |}.

(** [.filter(category__name=name)]: the exact lookup, an equality of strings
    (the database compares the names character for character). *)
Definition filter_category__name (name : string) : QuerySet → QuerySet :=
  narrow (λ s, category__name s = name).

(** [.filter(member=user_id)]: the servers [user_id] is a member of. *)
Definition filter_member (user_id : Z) : QuerySet → QuerySet :=
  narrow (λ s, user_id ∈ member s).

(** [.filter(id=value)] with the string [value] as it came from the request:
    the field converts it with [int] and passes [ValueError] on. *)
Definition filter_id (value : string) (q : QuerySet) : Exception + QuerySet :=
  match python.int value with
  | None => inl ValueError
  | Some n => inr (narrow (λ s, id s = n) q)
  end.

(** [.annotate(num_members=Count("member"))].  The count is taken over the
    whole member relation of each row; [list] never annotates a queryset it
    has narrowed by member.  The rows are kept in the order they had: the
    query has no [ORDER BY], the database is free to return the grouped rows
    in another order, and nothing below is stated about the order of an
    annotated queryset relative to the table. *)
Definition annotate_num_members (q : QuerySet) : QuerySet :=
  {| rows := rows q; annotated := true |}.

(** [.exists()] *)
Definition exists_ (q : QuerySet) : bool :=
  match rows q with
  | [] => false
  | _ :: _ => true
  end.

(** The largest [LIMIT] the database takes: a signed 64-bit integer. *)
Definition max_limit : Z := 2 ^ 63 - 1.

(** [q[:stop]]: a negative bound is refused with [ValueError].  A bound
    above [max_limit] is taken by the slice and refused by the database as
    soon as the queryset is evaluated, which is the next thing [list] does;
    the model raises [DatabaseError] here. *)
Definition slice_to (stop : Z) (q : QuerySet) : Exception + QuerySet :=
  if decide (stop < 0) then inl ValueError
  else if decide (max_limit < stop) then inl DatabaseError
  else inr {| rows := take (Z.to_nat stop) (rows q); annotated := annotated q |}.

(** One object of an evaluated queryset, with [num_members] when annotated. *)
Record Row := {
  instance : Server;
  num_members : option nat
}.

Definition fetch (q : QuerySet) (s : Server) : Row :=
  {| instance := s;
     num_members := if annotated q then Some (Count_member s) else None |}.

(** Iterating the queryset, as the serializer does. *)
Definition iter (q : QuerySet) : list Row := fetch q <$> rows q.

End query.

Module http.

(** [request.user]: Django's anonymous user, or a stored user with its id. *)
Inductive User :=
| AnonymousUser
| AuthenticatedUser (id : Z).

Definition is_authenticated (u : User) : bool :=
  match u with
  | AnonymousUser => false
  | AuthenticatedUser _ => true
  end.

Record Request := {
  query_params : gmap string string;
  user : User
}.

(** [Response(serializer.data)] for
    [ServerSerializer(queryset, many=True, context={"num_members": flag})].
    The serializer is not among the sources; the response is kept as what the
    serializer is given: the objects of the queryset and the context flag. *)
Record Response := {
  data : list query.Row;
  context_num_members : bool
}.

End http.

(** ** The view: state [self.queryset], exceptions *)

Module view.
Import exceptions query.

(** A piece of the method body: from [self.queryset] before it to
    [self.queryset] after it, with the value it yields or the exception it
    raises. *)
Definition View (A : Type) : Type := QuerySet → QuerySet * (Exception + A).

#[export] Instance view_ret : MRet View := λ A x qs, (qs, inr x).

#[export] Instance view_bind : MBind View := λ A B f m qs,
  match m qs with
  | (qs', inr x) => f x qs'
  | (qs', inl e) => (qs', inl e)
  end.

(** [self.queryset] read and assigned. *)
Definition get_queryset : View QuerySet := λ qs, (qs, inr qs).
Definition set_queryset (q : QuerySet) : View unit := λ _, (q, inr ()).

Definition raise {A} (e : Exception) : View A := λ qs, (qs, inl e).

(** A call that returns or raises, without touching [self.queryset]. *)
Definition call {A} (r : Exception + A) : View A := λ qs, (qs, r).

(** [if b: body] *)
Definition when (b : bool) (body : View unit) : View unit :=
  if b then body else mret ().

(** [if v: body], for [v] a value of [query_params.get]; the body sees the
    string. *)
Definition if_truthy (v : option string) (body : string → View unit)
    : View unit :=
  match v with
  | Some s => when (python.truthy v) (body s)
  | None => mret ()
  end.

(** [try: body / except ValueError: handler] *)
Definition try_except_ValueError (body handler : View unit) : View unit :=
  λ qs,
    match body qs with
    | (qs', inl ValueError) => handler qs'
    | r => r
    end.

End view.

Module ServerListViewSet.
Import models exceptions query http view.

(** [queryset = Server.objects.all()] *)
Definition queryset (objects : list Server) : QuerySet := all objects.

(** The five parameters, as lines 71-75 read them. *)
Definition category (request : Request) : option string :=
  query_params request !! "category".
Definition qty (request : Request) : option string :=
  query_params request !! "qty".
Definition by_user (request : Request) : bool :=
  bool_decide (query_params request !! "by_user" = Some "true").
Definition by_serverid (request : Request) : option string :=
  query_params request !! "by_serverid".
Definition with_num_members (request : Request) : bool :=
  bool_decide (query_params request !! "with_num_members" = Some "true").

(** Lines 77-78. *)
Definition category_stage (request : Request) : View unit :=
  if_truthy (category request) (λ category,
    qs ← get_queryset;
    set_queryset (filter_category__name category qs)).

(** Lines 80-84: the [raise] stands after the inner [if], not under an
    [else]. *)
Definition by_user_stage (request : Request) : View unit :=
  when (by_user request) (
    match user request with
    | AuthenticatedUser user_id =>
        qs ← get_queryset;
        set_queryset (filter_member user_id qs)
    | AnonymousUser => mret ()
    end;;
    raise AuthenticationFailed).

(** Lines 86-87. *)
Definition with_num_members_stage (request : Request) : View unit :=
  when (with_num_members request) (
    qs ← get_queryset;
    set_queryset (annotate_num_members qs)).

(** Lines 89-99. *)
Definition by_serverid_stage (request : Request) : View unit :=
  if_truthy (by_serverid request) (λ by_serverid,
    when (negb (is_authenticated (user request)))
      (raise AuthenticationFailed);;
    try_except_ValueError
      (qs ← get_queryset;
       qs' ← call (filter_id by_serverid qs);
       set_queryset qs';;
       qs ← get_queryset;
       when (negb (exists_ qs))
         (raise (ValidationError
                   ("Server with id " +:+ by_serverid +:+ " not found"))))
      (raise (ValidationError "Server value error"))).

(** Lines 101-102. *)
Definition qty_stage (request : Request) : View unit :=
  if_truthy (qty request) (λ qty,
    qs ← get_queryset;
    stop ← call (from_option inr (inl ValueError) (python.int qty));
    qs' ← call (slice_to stop qs);
    set_queryset qs').

(** Lines 104-107. *)
Definition respond (request : Request) : View Response :=
  qs ← get_queryset;
  mret {| data := iter qs; context_num_members := with_num_members request |}.

(** Lines 77-87: what the by-server-id stage starts from. *)
Definition stages_1_3 (request : Request) : View unit :=
  category_stage request;;
  by_user_stage request;;
  with_num_members_stage request.

(** Lines 77-99: all that comes before the quantity bound. *)
Definition stages_1_4 (request : Request) : View unit :=
  stages_1_3 request;;
  by_serverid_stage request.

(** [def list(self, request)], lines 71-107. *)
Definition list (request : Request) : View Response :=
  stages_1_4 request;;
  qty_stage request;;
  respond request.

End ServerListViewSet.

(** ** Sample data *)

Module samples.
Import models http.

Definition web1 : Server :=
  {| id := 1; category__name := "web"; member := {[ 7; 8; 9 ]} |}.
Definition game2 : Server :=
  {| id := 2; category__name := "Web"; member := ∅ |}.
Definition web3 : Server :=
  {| id := 3; category__name := "web"; member := {[ 7 ]} |}.

Definition objects : list Server := [web1; game2; web3].

(** The request [?k1=v1&k2=v2...] sent by [u]. *)
Definition GET (params : list (string * string)) (u : User) : Request :=
  {| query_params := list_to_map params; user := u |}.

End samples.

(** The request with the parameter [k] not sent. *)
Definition without (k : string) (request : http.Request) : http.Request :=
  {| http.query_params := delete k (http.query_params request);
     http.user := http.user request |}.

(** [qs'] selects some of the rows of [qs], in the same order, and carries
    the same annotation. *)
Definition narrowed (qs qs' : query.QuerySet) : Prop :=
  query.rows qs' `sublist_of` query.rows qs
  ∧ query.annotated qs' = query.annotated qs.

(** The condition of lines 77-78 on one row: a [category] that is true keeps
    the rows of that category name, a [category] that is false keeps every
    row. *)
Definition kept_by_category (request : http.Request) (s : models.Server)
    : Prop :=
  ∀ c, ServerListViewSet.category request = Some c → c ≠ "" →
       models.category__name s = c.

(** The by-server-id stage lets the request through: no [by_serverid] to
    speak of, or an authenticated caller and a value that reads as the id of
    a server the category stage keeps. *)
Definition by_serverid_passes (request : http.Request)
    (objects : list models.Server) : Prop :=
  python.truthy (ServerListViewSet.by_serverid request) = false
  ∨ ∃ v n s,
      ServerListViewSet.by_serverid request = Some v
      ∧ python.int v = Some n
      ∧ http.is_authenticated (http.user request) = true
      ∧ s ∈ objects ∧ models.id s = n ∧ kept_by_category request s.

(** The quantity stage lets the request through: no [qty] to speak of, or
    one that reads as an integer that is not negative and that the database
    takes as a limit. *)
Definition qty_passes (request : http.Request) : Prop :=
  python.truthy (ServerListViewSet.qty request) = false
  ∨ ∃ q n, ServerListViewSet.qty request = Some q
           ∧ python.int q = Some n ∧ 0 ≤ n ≤ query.max_limit.

(** The quantity stage refuses the request: a [qty] that is true and does
    not read as an integer, or reads as a negative one. *)
Definition qty_refused (request : http.Request) : Prop :=
  ∃ q, ServerListViewSet.qty request = Some q ∧ q ≠ ""
       ∧ (python.int q = None ∨ ∃ n, python.int q = Some n ∧ n < 0).

(** The quantity stage sets a limit the database refuses: a [qty] that
    reads as an integer above [max_limit]. *)
Definition qty_overflows (request : http.Request) : Prop :=
  ∃ q n, ServerListViewSet.qty request = Some q
         ∧ python.int q = Some n ∧ query.max_limit < n.

(** ** Python's [int] on sample strings *)

Example int_999 : python.int "999" = Some 999.
Proof. reflexivity. Qed.
Example int_padded : python.int "  -1_000 " = Some (-1000).
Proof. reflexivity. Qed.
Example int_abc : python.int "abc" = None.
Proof. reflexivity. Qed.
Example int_empty : python.int "" = None.
Proof. reflexivity. Qed.
Example int_blanks :
  python.int (String (ascii_of_nat 28) "3") = None
  ∧ python.int (String (ascii_of_nat 31) "2") = None
  ∧ python.int (String (ascii_of_nat 133) "3") = Some 3
  ∧ python.int (String (ascii_of_nat 11) "3" +:+ String (ascii_of_nat 160) "")
    = Some 3.
Proof. repeat split; reflexivity. Qed.
Example int_bad_underscore :
  python.int "1__0" = None ∧ python.int "_1" = None ∧ python.int "1_" = None
  ∧ python.int "- 1" = None ∧ python.int "1.0" = None.
Proof. repeat split; reflexivity. Qed.


(** ** Running pieces of the method body *)

Import models exceptions query http view.

Section bind.
Context {A B : Type}.
Implicit Types (m : View A) (f : A → View B).

Lemma bind_returns m f qs qs' x :
  m qs = (qs', inr x) → (m ≫= f) qs = f x qs'.
Proof. intros Hm. unfold mbind, view_bind. by rewrite Hm. Qed.

Lemma bind_raises m f qs qs' e :
  m qs = (qs', inl e) → (m ≫= f) qs = (qs', inl e).
Proof. intros Hm. unfold mbind, view_bind. by rewrite Hm. Qed.

Lemma bind_inv m f qs qs2 r :
  (m ≫= f) qs = (qs2, r) →
  (∃ e, m qs = (qs2, inl e) ∧ r = inl e)
  ∨ (∃ qs1 x, m qs = (qs1, inr x) ∧ f x qs1 = (qs2, r)).
Proof.
  unfold mbind, view_bind. destruct (m qs) as [qs1 [e|x]]; intros H.
  - left. exists e. by inversion H.
  - right. by exists qs1, x.
Qed.

Lemma bind_inv_returns m f qs qs2 y :
  (m ≫= f) qs = (qs2, inr y) →
  ∃ qs1 x, m qs = (qs1, inr x) ∧ f x qs1 = (qs2, inr y).
Proof.
  intros H. apply bind_inv in H as [(e & _ & He)|H]; [discriminate|done].
Qed.

End bind.

Lemma truthy_Some s : python.truthy (Some s) = true ↔ s ≠ "".
Proof. apply bool_decide_eq_true. Qed.

Lemma truthy_false v : python.truthy v = false ↔ v = None ∨ v = Some "".
Proof.
  destruct v as [s|]; simpl; [|naive_solver].
  rewrite bool_decide_eq_false. split.
  - intros H. right. f_equal. by destruct (decide (s = "")).
  - intros [|[= ->]]; [done|]. by intros [].
Qed.

Lemma if_truthy_skips v body qs :
  python.truthy v = false → if_truthy v body qs = (qs, inr ()).
Proof. intros H. unfold if_truthy. rewrite H. by destruct v. Qed.

Lemma if_truthy_enters s body qs :
  s ≠ "" → if_truthy (Some s) body qs = body s qs.
Proof.
  intros H. unfold if_truthy. by rewrite (proj2 (truthy_Some s) H).
Qed.

Section stages.
Variable request : Request.
Variable qs : QuerySet.

Lemma category_stage_narrows c :
  ServerListViewSet.category request = Some c → c ≠ "" →
  ServerListViewSet.category_stage request qs
  = (filter_category__name c qs, inr ()).
Proof.
  intros Hc Hne. unfold ServerListViewSet.category_stage.
  rewrite Hc. by rewrite if_truthy_enters.
Qed.

Lemma category_stage_skips :
  python.truthy (ServerListViewSet.category request) = false →
  ServerListViewSet.category_stage request qs = (qs, inr ()).
Proof. apply if_truthy_skips. Qed.

Lemma category_stage_returns :
  ∃ qs', ServerListViewSet.category_stage request qs = (qs', inr ())
    ∧ annotated qs' = annotated qs ∧ rows qs' ⊆ rows qs.
Proof.
  destruct (python.truthy (ServerListViewSet.category request)) eqn:Ht.
  - destruct (ServerListViewSet.category request) as [c|] eqn:Hc; [|done].
    exists (filter_category__name c qs).
    rewrite (category_stage_narrows c Hc (proj1 (truthy_Some c) Ht)).
    split_and!; [done..|]. intros s. simpl. rewrite list_elem_of_filter.
    tauto.
  - exists qs. by rewrite category_stage_skips.
Qed.

Lemma by_user_stage_raises :
  ServerListViewSet.by_user request = true →
  ServerListViewSet.by_user_stage request qs
  = (match user request with
     | AuthenticatedUser user_id => filter_member user_id qs
     | AnonymousUser => qs
     end, inl AuthenticationFailed).
Proof.
  intros Hb. unfold ServerListViewSet.by_user_stage. rewrite Hb.
  by destruct (user request).
Qed.

Lemma by_user_stage_skips :
  ServerListViewSet.by_user request = false →
  ServerListViewSet.by_user_stage request qs = (qs, inr ()).
Proof. intros Hb. unfold ServerListViewSet.by_user_stage. by rewrite Hb. Qed.

Lemma with_num_members_stage_runs :
  ServerListViewSet.with_num_members_stage request qs
  = (if ServerListViewSet.with_num_members request
     then annotate_num_members qs else qs, inr ()).
Proof.
  unfold ServerListViewSet.with_num_members_stage.
  by destruct (ServerListViewSet.with_num_members request).
Qed.

Lemma by_serverid_stage_skips :
  python.truthy (ServerListViewSet.by_serverid request) = false →
  ServerListViewSet.by_serverid_stage request qs = (qs, inr ()).
Proof. apply if_truthy_skips. Qed.

Lemma by_serverid_stage_anonymous v :
  ServerListViewSet.by_serverid request = Some v → v ≠ "" →
  user request = AnonymousUser →
  ServerListViewSet.by_serverid_stage request qs
  = (qs, inl AuthenticationFailed).
Proof.
  intros Hv Hne Hu. unfold ServerListViewSet.by_serverid_stage.
  rewrite Hv, if_truthy_enters by done. by rewrite Hu.
Qed.

Lemma by_serverid_stage_unparsable v :
  ServerListViewSet.by_serverid request = Some v → v ≠ "" →
  is_authenticated (user request) = true →
  python.int v = None →
  ServerListViewSet.by_serverid_stage request qs
  = (qs, inl (ValidationError "Server value error")).
Proof.
  intros Hv Hne Hu Hi. unfold ServerListViewSet.by_serverid_stage.
  rewrite Hv, if_truthy_enters by done. rewrite Hu. simpl.
  unfold mbind, view_bind, when, mret, view_ret, try_except_ValueError,
    get_queryset, call, filter_id.
  by rewrite Hi.
Qed.

Lemma by_serverid_stage_parsed v n :
  ServerListViewSet.by_serverid request = Some v → v ≠ "" →
  is_authenticated (user request) = true →
  python.int v = Some n →
  ServerListViewSet.by_serverid_stage request qs
  = (narrow (λ s, id s = n) qs,
     if exists_ (narrow (λ s, id s = n) qs) then inr ()
     else inl (ValidationError ("Server with id " +:+ v +:+ " not found"))).
Proof.
  intros Hv Hne Hu Hi. unfold ServerListViewSet.by_serverid_stage.
  rewrite Hv, if_truthy_enters by done. rewrite Hu. simpl.
  unfold mbind, view_bind, when, mret, view_ret, try_except_ValueError,
    get_queryset, set_queryset, call, filter_id, raise.
  rewrite Hi. by destruct (exists_ _).
Qed.

Lemma qty_stage_skips :
  python.truthy (ServerListViewSet.qty request) = false →
  ServerListViewSet.qty_stage request qs = (qs, inr ()).
Proof. apply if_truthy_skips. Qed.

Lemma qty_stage_unparsable q :
  ServerListViewSet.qty request = Some q → q ≠ "" →
  python.int q = None →
  ServerListViewSet.qty_stage request qs = (qs, inl ValueError).
Proof.
  intros Hq Hne Hi. unfold ServerListViewSet.qty_stage.
  rewrite Hq, if_truthy_enters by done.
  unfold mbind, view_bind, get_queryset, call. by rewrite Hi.
Qed.

Lemma qty_stage_slices q n :
  ServerListViewSet.qty request = Some q → q ≠ "" →
  python.int q = Some n → 0 ≤ n ≤ max_limit →
  ServerListViewSet.qty_stage request qs
  = ({| rows := take (Z.to_nat n) (rows qs); annotated := annotated qs |},
     inr ()).
Proof.
  intros Hq Hne Hi Hn. unfold ServerListViewSet.qty_stage.
  rewrite Hq, if_truthy_enters by done.
  unfold mbind, view_bind, get_queryset, set_queryset, call, slice_to.
  rewrite Hi. simpl. by rewrite !decide_False by lia.
Qed.

Lemma qty_stage_overflows q n :
  ServerListViewSet.qty request = Some q → q ≠ "" →
  python.int q = Some n → max_limit < n →
  ServerListViewSet.qty_stage request qs = (qs, inl DatabaseError).
Proof.
  intros Hq Hne Hi Hn. unfold ServerListViewSet.qty_stage.
  rewrite Hq, if_truthy_enters by done.
  unfold mbind, view_bind, get_queryset, set_queryset, call, slice_to.
  rewrite Hi. simpl.
  rewrite decide_False by (unfold max_limit in Hn; lia).
  by rewrite decide_True.
Qed.

Lemma qty_stage_negative q n :
  ServerListViewSet.qty request = Some q → q ≠ "" →
  python.int q = Some n → n < 0 →
  ServerListViewSet.qty_stage request qs = (qs, inl ValueError).
Proof.
  intros Hq Hne Hi Hn. unfold ServerListViewSet.qty_stage.
  rewrite Hq, if_truthy_enters by done.
  unfold mbind, view_bind, get_queryset, set_queryset, call, slice_to.
  rewrite Hi. simpl. by rewrite decide_True by lia.
Qed.

End stages.

(** ** The stages composed *)

Lemma by_user_true request :
  ServerListViewSet.by_user request = true
  ↔ query_params request !! "by_user" = Some "true".
Proof. apply bool_decide_eq_true. Qed.

Lemma by_user_false request :
  ServerListViewSet.by_user request = false
  ↔ query_params request !! "by_user" ≠ Some "true".
Proof. apply bool_decide_eq_false. Qed.

Lemma with_num_members_true request :
  ServerListViewSet.with_num_members request = true
  ↔ query_params request !! "with_num_members" = Some "true".
Proof. apply bool_decide_eq_true. Qed.

(** With [by_user], the method ends in the second stage, whoever calls. *)
Lemma stages_1_3_by_user request qs :
  ServerListViewSet.by_user request = true →
  ∃ qs1, ServerListViewSet.category_stage request qs = (qs1, inr ())
    ∧ ServerListViewSet.stages_1_3 request qs
      = (match user request with
         | AuthenticatedUser user_id => filter_member user_id qs1
         | AnonymousUser => qs1
         end, inl AuthenticationFailed).
Proof.
  intros Hb. destruct (category_stage_returns request qs) as (qs1 & H1 & _).
  exists qs1. split; [done|]. unfold ServerListViewSet.stages_1_3.
  rewrite (bind_returns _ _ _ _ _ H1).
  by rewrite (bind_raises _ _ _ _ _ (by_user_stage_raises request qs1 Hb)).
Qed.

(** Without it, the first three stages always return. *)
Lemma stages_1_3_returns request qs :
  ServerListViewSet.by_user request = false →
  ∃ qs1, ServerListViewSet.category_stage request qs = (qs1, inr ())
    ∧ ServerListViewSet.stages_1_3 request qs
      = (if ServerListViewSet.with_num_members request
         then annotate_num_members qs1 else qs1, inr ()).
Proof.
  intros Hb. destruct (category_stage_returns request qs) as (qs1 & H1 & _).
  exists qs1. split; [done|]. unfold ServerListViewSet.stages_1_3.
  rewrite (bind_returns _ _ _ _ _ H1).
  rewrite (bind_returns _ _ _ _ _ (by_user_stage_skips request qs1 Hb)).
  apply with_num_members_stage_runs.
Qed.

Lemma list_raises_early request qs qs' e :
  ServerListViewSet.stages_1_3 request qs = (qs', inl e) →
  ServerListViewSet.list request qs = (qs', inl e).
Proof.
  intros H. unfold ServerListViewSet.list, ServerListViewSet.stages_1_4.
  apply bind_raises. by apply bind_raises.
Qed.

(** With [by_user] the method raises [AuthenticationFailed], for the
    anonymous caller and for the authenticated one alike. *)
Lemma list_by_user_raises request qs :
  query_params request !! "by_user" = Some "true" →
  (ServerListViewSet.list request qs).2 = inl AuthenticationFailed.
Proof.
  intros Hb%by_user_true.
  destruct (stages_1_3_by_user request qs Hb) as (qs1 & _ & H3).
  by rewrite (list_raises_early _ _ _ _ H3).
Qed.

(** A response comes only from a request without [by_user]. *)
Lemma list_returns_inv request qs qs' resp :
  ServerListViewSet.list request qs = (qs', inr resp) →
  ServerListViewSet.by_user request = false
  ∧ ∃ qs4, ServerListViewSet.stages_1_4 request qs = (qs4, inr ())
    ∧ ServerListViewSet.qty_stage request qs4 = (qs', inr ())
    ∧ resp = {| data := iter qs';
                context_num_members :=
                  ServerListViewSet.with_num_members request |}.
Proof.
  intros H. split.
  - destruct (ServerListViewSet.by_user request) eqn:Hb; [|done].
    destruct (stages_1_3_by_user request qs Hb) as (qs1 & _ & H3).
    rewrite (list_raises_early _ _ _ _ H3) in H. discriminate.
  - unfold ServerListViewSet.list in H.
    apply bind_inv_returns in H as (qs4 & [] & H4 & H).
    apply bind_inv_returns in H as (qs5 & [] & H5 & H).
    exists qs4. split_and!; [done| |].
    + unfold ServerListViewSet.respond, mbind, view_bind, get_queryset,
        mret, view_ret in H. by inversion H; subst.
    + unfold ServerListViewSet.respond, mbind, view_bind, get_queryset,
        mret, view_ret in H. by inversion H.
Qed.

(** What a request without [by_user] does up to the by-server-id stage. *)
Lemma list_by_serverid_raises request qs qs3 qs' e :
  ServerListViewSet.stages_1_3 request qs = (qs3, inr ()) →
  ServerListViewSet.by_serverid_stage request qs3 = (qs', inl e) →
  ServerListViewSet.list request qs = (qs', inl e).
Proof.
  intros H3 H4. unfold ServerListViewSet.list, ServerListViewSet.stages_1_4.
  apply bind_raises. rewrite (bind_returns _ _ _ _ _ H3). exact H4.
Qed.

(** ** What a returning stage does to the queryset *)

#[export] Instance narrowed_refl : Reflexive narrowed.
Proof. by intros qs. Qed.

#[export] Instance narrowed_trans : Transitive narrowed.
Proof.
  intros q1 q2 q3 [Hr Ha] [Hr' Ha']. split.
  - by etrans.
  - by rewrite Ha', Ha.
Qed.

Lemma narrow_narrowed (P : Server → Prop) `{!∀ s, Decision (P s)} qs :
  narrowed qs (narrow P qs).
Proof. split; [apply sublist_filter|done]. Qed.

Lemma category_stage_narrowed request qs qs' :
  ServerListViewSet.category_stage request qs = (qs', inr ()) →
  narrowed qs qs'.
Proof.
  destruct (python.truthy (ServerListViewSet.category request)) eqn:Ht.
  - destruct (ServerListViewSet.category request) as [c|] eqn:Hc; [|done].
    rewrite (category_stage_narrows _ _ c Hc (proj1 (truthy_Some c) Ht)).
    intros [= <-]. apply narrow_narrowed.
  - rewrite category_stage_skips by done. by intros [= <-].
Qed.

Lemma by_serverid_stage_narrowed request qs qs' :
  ServerListViewSet.by_serverid_stage request qs = (qs', inr ()) →
  narrowed qs qs'.
Proof.
  destruct (python.truthy (ServerListViewSet.by_serverid request)) eqn:Ht.
  - destruct (ServerListViewSet.by_serverid request) as [v|] eqn:Hv; [|done].
    apply truthy_Some in Ht.
    destruct (user request) as [|uid] eqn:Hu.
    { by rewrite (by_serverid_stage_anonymous _ _ v Hv Ht Hu). }
    assert (is_authenticated (user request) = true) as Ha by by rewrite Hu.
    destruct (python.int v) as [n|] eqn:Hi.
    + rewrite (by_serverid_stage_parsed _ _ v n Hv Ht Ha Hi).
      intros [= <- _]. apply narrow_narrowed.
    + by rewrite (by_serverid_stage_unparsable _ _ v Hv Ht Ha Hi).
  - rewrite by_serverid_stage_skips by done. by intros [= <-].
Qed.

Lemma qty_stage_narrowed request qs qs' :
  ServerListViewSet.qty_stage request qs = (qs', inr ()) →
  narrowed qs qs'.
Proof.
  destruct (python.truthy (ServerListViewSet.qty request)) eqn:Ht.
  - destruct (ServerListViewSet.qty request) as [q|] eqn:Hq; [|done].
    apply truthy_Some in Ht.
    destruct (python.int q) as [n|] eqn:Hi.
    + destruct (decide (0 ≤ n)) as [Hn|Hn];
        [destruct (decide (n ≤ max_limit)) as [Hm|Hm]|].
      * rewrite (qty_stage_slices _ _ q n Hq Ht Hi (conj Hn Hm)).
        intros [= <-]. split; [apply sublist_take|done].
      * by rewrite (qty_stage_overflows _ _ q n Hq Ht Hi) by lia.
      * by rewrite (qty_stage_negative _ _ q n Hq Ht Hi) by lia.
    + by rewrite (qty_stage_unparsable _ _ q Hq Ht Hi).
  - rewrite qty_stage_skips by done. by intros [= <-].
Qed.

(** The queryset a response is built from: some rows of what the category
    stage left of the table, in the table's order, annotated exactly when
    [with_num_members] is set. *)
Lemma list_returns_shape request objects qs resp :
  ServerListViewSet.list request (ServerListViewSet.queryset objects)
  = (qs, inr resp) →
  (∃ qs1, ServerListViewSet.category_stage request
            (ServerListViewSet.queryset objects) = (qs1, inr ())
     ∧ rows qs `sublist_of` rows qs1)
  ∧ rows qs `sublist_of` objects
  ∧ annotated qs = ServerListViewSet.with_num_members request
  ∧ resp = {| data := iter qs;
              context_num_members :=
                ServerListViewSet.with_num_members request |}.
Proof.
  intros (Hb & qs4 & H4 & H5 & ->)%list_returns_inv.
  destruct (stages_1_3_returns request
    (ServerListViewSet.queryset objects) Hb) as (qs1 & H1 & H3).
  unfold ServerListViewSet.stages_1_4 in H4.
  rewrite (bind_returns _ _ _ _ _ H3) in H4.
  pose proof (category_stage_narrowed _ _ _ H1) as [Hr1 Ha1].
  apply by_serverid_stage_narrowed in H4 as [Hr4 Ha4].
  apply qty_stage_narrowed in H5 as [Hr5 Ha5].
  assert (rows qs `sublist_of` rows qs1) as Hr.
  { do 2 (etrans; [eassumption|]).
    by destruct (ServerListViewSet.with_num_members request). }
  split_and!; [by exists qs1|by etrans|rewrite Ha5, Ha4|done].
  destruct (ServerListViewSet.with_num_members request); [done|].
  by rewrite Ha1.
Qed.

(** The size of a set is the number of distinct elements of any list that
    enumerates it, with or without repetitions. *)
Lemma Count_member_distinct (s : Server) (linked : list Z) :
  list_to_set linked = member s →
  Count_member s = length (remove_dups linked).
Proof.
  unfold Count_member. intros <-.
  rewrite <-(size_list_to_set (C:=gset Z) (remove_dups linked))
    by apply NoDup_remove_dups.
  f_equal. apply set_eq. intros x.
  by rewrite !elem_of_list_to_set, elem_of_remove_dups.
Qed.

Lemma iter_take n qs :
  iter {| rows := take n (rows qs); annotated := annotated qs |}
  = take n (iter qs).
Proof. unfold iter. simpl. by rewrite fmap_take. Qed.

(** ** Parameters sent with the empty string *)

Section blank.
Variable request : Request.

Lemma without_user k : user (without k request) = user request.
Proof. done. Qed.

Lemma without_other k k' :
  k ≠ k' →
  query_params (without k request) !! k' = query_params request !! k'.
Proof. intros Hk. unfold without. simpl. by apply lookup_delete_ne. Qed.

Lemma without_same k : query_params (without k request) !! k = None.
Proof. unfold without. simpl. apply lookup_delete_eq. Qed.

End blank.

(** ** The claims *)

(** C1 (contradicted by the code): a request with [by_user=true] from an
    authenticated caller does not go on to the next stage.  For the caller
    with id 7 over the sample table, the working collection is narrowed to
    the servers 7 is a member of, and then [AuthenticationFailed] is raised
    all the same. *)
Theorem by_user_authenticated_raises :
  ServerListViewSet.list
    (samples.GET [("by_user", "true")] (AuthenticatedUser 7))
    (ServerListViewSet.queryset samples.objects)
  = ({| rows := [samples.web1; samples.web3]; annotated := false |},
     inl AuthenticationFailed).
Proof. by vm_compute. Qed.

(** C2: with [by_user=true] and an anonymous caller the method raises
    [AuthenticationFailed], and [self.queryset] is left as the category stage
    made it: narrowed by category when one was given, the whole table
    otherwise, never narrowed by member. *)
Theorem by_user_anonymous_fails request objects :
  query_params request !! "by_user" = Some "true" →
  user request = AnonymousUser →
  ∃ qs,
    ServerListViewSet.list request (ServerListViewSet.queryset objects)
    = (qs, inl AuthenticationFailed)
    ∧ ServerListViewSet.category_stage request
        (ServerListViewSet.queryset objects) = (qs, inr ())
    ∧ (python.truthy (ServerListViewSet.category request) = false →
       qs = ServerListViewSet.queryset objects)
    ∧ (∀ c, ServerListViewSet.category request = Some c → c ≠ "" →
       qs = filter_category__name c (ServerListViewSet.queryset objects)).
Proof.
  intros Hb%by_user_true Hu.
  destruct (stages_1_3_by_user request (ServerListViewSet.queryset objects) Hb)
    as (qs & H1 & H3).
  rewrite Hu in H3. exists qs. split_and!.
  - by apply list_raises_early.
  - done.
  - intros Ht. rewrite category_stage_skips in H1 by done. by inversion H1.
  - intros c Hc Hne. rewrite (category_stage_narrows _ _ c Hc Hne) in H1.
    by inversion H1.
Qed.

Lemma by_user_anonymous_fails_witness :
  ∃ qs,
    ServerListViewSet.list
      (samples.GET [("by_user", "true"); ("category", "web")] AnonymousUser)
      (ServerListViewSet.queryset samples.objects)
    = (qs, inl AuthenticationFailed)
    ∧ rows qs = [samples.web1; samples.web3].
Proof.
  destruct (by_user_anonymous_fails
    (samples.GET [("by_user", "true"); ("category", "web")] AnonymousUser)
    samples.objects) as (qs & Hl & _ & _ & Hc); [by vm_compute..|].
  exists qs. split; [done|]. by rewrite (Hc "web").
Defined.

(** C3, amended: with a non-empty [by_serverid] and an anonymous caller the
    method raises [AuthenticationFailed], whatever the value is: whether or
    not it reads as an integer, whether or not a server has that id. *)
Theorem by_serverid_anonymous_fails request objects v :
  query_params request !! "by_serverid" = Some v → v ≠ "" →
  user request = AnonymousUser →
  (ServerListViewSet.list request (ServerListViewSet.queryset objects)).2
  = inl AuthenticationFailed.
Proof.
  intros Hv Hne Hu.
  destruct (ServerListViewSet.by_user request) eqn:Hb.
  - destruct (stages_1_3_by_user request
      (ServerListViewSet.queryset objects) Hb) as (qs1 & _ & H3).
    by rewrite (list_raises_early _ _ _ _ H3).
  - destruct (stages_1_3_returns request
      (ServerListViewSet.queryset objects) Hb) as (qs1 & _ & H3).
    by rewrite (list_by_serverid_raises _ _ _ _ _ H3
      (by_serverid_stage_anonymous request _ v Hv Hne Hu)).
Qed.

Lemma by_serverid_anonymous_fails_witness :
  (ServerListViewSet.list
     (samples.GET [("by_serverid", "not a number")] AnonymousUser)
     (ServerListViewSet.queryset samples.objects)).2
  = inl AuthenticationFailed.
Proof.
  apply (by_serverid_anonymous_fails
    (samples.GET [("by_serverid", "not a number")] AnonymousUser)
    samples.objects "not a number"); by vm_compute.
Defined.

(** C3 as stated fails: [by_serverid] sent with the empty string by an
    anonymous caller is answered with the whole table. *)
Lemma by_serverid_blank_anonymous_answered :
  let request := samples.GET [("by_serverid", "")] AnonymousUser in
  is_Some (query_params request !! "by_serverid")
  ∧ user request = AnonymousUser
  ∧ (ServerListViewSet.list request
       (ServerListViewSet.queryset samples.objects)).2
    = inr {| data := iter (all samples.objects);
             context_num_members := false |}.
Proof. split_and!; [by eexists|done|by vm_compute]. Qed.

(** C4, amended: with an authenticated caller, [by_user] not ["true"], and a
    non-empty [by_serverid] that [int] refuses, the method raises
    [ValidationError] with the detail ["Server value error"]. *)
Theorem by_serverid_unparsable_fails request objects v :
  query_params request !! "by_serverid" = Some v → v ≠ "" →
  python.int v = None →
  is_authenticated (user request) = true →
  query_params request !! "by_user" ≠ Some "true" →
  (ServerListViewSet.list request (ServerListViewSet.queryset objects)).2
  = inl (ValidationError "Server value error").
Proof.
  intros Hv Hne Hi Hu Hb%by_user_false.
  destruct (stages_1_3_returns request
    (ServerListViewSet.queryset objects) Hb) as (qs1 & _ & H3).
  by rewrite (list_by_serverid_raises _ _ _ _ _ H3
    (by_serverid_stage_unparsable request _ v Hv Hne Hu Hi)).
Qed.

Lemma by_serverid_unparsable_fails_witness :
  (ServerListViewSet.list
     (samples.GET [("by_serverid", "abc")] (AuthenticatedUser 7))
     (ServerListViewSet.queryset samples.objects)).2
  = inl (ValidationError "Server value error").
Proof.
  apply (by_serverid_unparsable_fails
    (samples.GET [("by_serverid", "abc")] (AuthenticatedUser 7))
    samples.objects "abc"); by vm_compute.
Defined.

(** C4 as stated fails: the empty string does not read as an integer, and an
    authenticated caller who sends it as [by_serverid] gets the whole table,
    not an error. *)
Lemma by_serverid_blank_authenticated_answered :
  let request := samples.GET [("by_serverid", "")] (AuthenticatedUser 7) in
  query_params request !! "by_serverid" = Some ""
  ∧ python.int "" = None
  ∧ is_authenticated (user request) = true
  ∧ (ServerListViewSet.list request
       (ServerListViewSet.queryset samples.objects)).2
    = inr {| data := iter (all samples.objects);
             context_num_members := false |}.
Proof. split_and!; by vm_compute. Qed.

(** The by-server-id stage on an id no server of the working collection
    has, for a request without [by_user]: the detail names the value as it
    was sent. *)
Lemma by_serverid_not_found_fails request objects v n qs3 :
  query_params request !! "by_serverid" = Some v →
  python.int v = Some n →
  is_authenticated (user request) = true →
  query_params request !! "by_user" ≠ Some "true" →
  ServerListViewSet.stages_1_3 request (ServerListViewSet.queryset objects)
  = (qs3, inr ()) →
  (∀ s, s ∈ rows qs3 → id s ≠ n) →
  (ServerListViewSet.list request (ServerListViewSet.queryset objects)).2
  = inl (ValidationError ("Server with id " +:+ v +:+ " not found")).
Proof.
  intros Hv Hi Hu Hb%by_user_false H3 Hnone.
  assert (v ≠ "") as Hne by (intros ->; discriminate Hi).
  pose proof (by_serverid_stage_parsed request qs3 v n Hv Hne Hu Hi) as H4.
  assert (exists_ (narrow (λ s, id s = n) qs3) = false) as Hex.
  { unfold exists_, narrow. simpl.
    destruct (filter _ (rows qs3)) as [|s l] eqn:Hf; [done|].
    assert (s ∈ filter (λ s, id s = n) (rows qs3)) as Hs
      by (rewrite Hf; left).
    apply list_elem_of_filter in Hs as [Hid Hs]. by destruct (Hnone s Hs). }
  rewrite Hex in H4.
  by rewrite (list_by_serverid_raises _ _ _ _ _ H3 H4).
Qed.

(** C5 (contradicted by the code): an authenticated caller asks for server
    999, which does not exist, together with [by_user=true].  The method
    raises [AuthenticationFailed] in the by-user stage and never reaches the
    lookup that would report ["Server with id 999 not found"]. *)
Theorem by_serverid_not_found_preempted :
  ServerListViewSet.list
    (samples.GET [("by_user", "true"); ("by_serverid", "999")]
       (AuthenticatedUser 7))
    (ServerListViewSet.queryset samples.objects)
  = ({| rows := [samples.web1; samples.web3]; annotated := false |},
     inl AuthenticationFailed).
Proof. by vm_compute. Qed.

Example by_serverid_999_not_found :
  (ServerListViewSet.list
     (samples.GET [("by_serverid", "999")] (AuthenticatedUser 7))
     (ServerListViewSet.queryset samples.objects)).2
  = inl (ValidationError "Server with id 999 not found").
Proof. by vm_compute. Qed.

(** C6: in every response the context flag is true exactly when the
    queryset was annotated, which is exactly when [with_num_members] is
    ["true"]; and then every object of the response is a server of the table
    that carries the size of its member set: the number of distinct ids in
    any enumeration of its members, repeated or not. *)
Theorem with_num_members_counts request objects qs resp :
  ServerListViewSet.list request (ServerListViewSet.queryset objects)
  = (qs, inr resp) →
  (context_num_members resp = true ↔ annotated qs = true)
  ∧ (annotated qs = true
     ↔ query_params request !! "with_num_members" = Some "true")
  ∧ (query_params request !! "with_num_members" = Some "true" →
     ∀ row, row ∈ data resp →
       instance row ∈ objects
       ∧ num_members row = Some (size (member (instance row)))
       ∧ ∀ linked : list Z,
           list_to_set linked = member (instance row) →
           num_members row = Some (length (remove_dups linked))).
Proof.
  intros (_ & Hr & Ha & ->)%list_returns_shape. simpl. split_and!.
  - by rewrite Ha.
  - by rewrite Ha, with_num_members_true.
  - intros Hw%with_num_members_true row Hrow.
    rewrite Hw in Ha. unfold iter in Hrow.
    apply list_elem_of_fmap in Hrow as (s & -> & Hs).
    unfold fetch. rewrite Ha. simpl. split_and!.
    + by apply (sublist_subseteq _ _ Hr).
    + done.
    + intros linked Hl. f_equal. by apply Count_member_distinct.
Qed.

Lemma with_num_members_counts_witness :
  let resp :=
    {| data := [ {| instance := samples.web1; num_members := Some 3%nat |};
                 {| instance := samples.web3; num_members := Some 1%nat |} ];
       context_num_members := true |} in
  (ServerListViewSet.list
     (samples.GET [("with_num_members", "true"); ("category", "web")]
        AnonymousUser)
     (ServerListViewSet.queryset samples.objects)).2 = inr resp
  ∧ ∀ row, row ∈ data resp →
      num_members row = Some (size (member (instance row))).
Proof.
  split; [by vm_compute|]. intros row Hrow.
  by apply (with_num_members_counts
    (samples.GET [("with_num_members", "true"); ("category", "web")]
       AnonymousUser)
    samples.objects
    {| rows := [samples.web1; samples.web3]; annotated := true |} _
    ltac:(by vm_compute)).
Defined.

(** C7: a response to a request whose [qty] reads as [n ≥ 0] holds the first
    [n] objects of what the stages before the bound produced, in their
    order: [min n size] of them, so never more than [n], none for [n = 0],
    and all of them once [n] reaches their number. *)
Theorem qty_bounds request objects q n qs resp :
  query_params request !! "qty" = Some q →
  python.int q = Some n → 0 ≤ n →
  ServerListViewSet.list request (ServerListViewSet.queryset objects)
  = (qs, inr resp) →
  ∃ qs4,
    ServerListViewSet.stages_1_4 request (ServerListViewSet.queryset objects)
    = (qs4, inr ())
    ∧ data resp = take (Z.to_nat n) (iter qs4)
    ∧ length (data resp) = Nat.min (Z.to_nat n) (length (iter qs4))
    ∧ Z.of_nat (length (data resp)) ≤ n
    ∧ (n = 0 → data resp = [])
    ∧ (Z.of_nat (length (iter qs4)) ≤ n → data resp = iter qs4).
Proof.
  intros Hq Hi Hn (_ & qs4 & H4 & H5 & ->)%list_returns_inv.
  assert (q ≠ "") as Hne by (intros ->; discriminate Hi).
  assert (n ≤ max_limit) as Hm.
  { destruct (decide (n ≤ max_limit)) as [|Hm]; [done|].
    by rewrite (qty_stage_overflows _ _ q n Hq Hne Hi) in H5 by lia. }
  rewrite (qty_stage_slices _ _ q n Hq Hne Hi (conj Hn Hm)) in H5.
  injection H5 as <-. exists qs4. simpl. rewrite iter_take.
  split_and!.
  - done.
  - done.
  - apply length_take.
  - rewrite length_take. lia.
  - intros ->. apply take_0.
  - intros Hle. apply take_ge. lia.
Qed.

Lemma qty_bounds_witness :
  ∃ qs4,
    ServerListViewSet.stages_1_4
      (samples.GET [("category", "web"); ("qty", "1")] AnonymousUser)
      (ServerListViewSet.queryset samples.objects) = (qs4, inr ())
    ∧ [ {| instance := samples.web1; num_members := None |} ]
      = take 1 (iter qs4).
Proof.
  destruct (qty_bounds
    (samples.GET [("category", "web"); ("qty", "1")] AnonymousUser)
    samples.objects "1" 1
    {| rows := [samples.web1]; annotated := false |}
    {| data := [ {| instance := samples.web1; num_members := None |} ];
       context_num_members := false |})
    as (qs4 & H4 & Hd & _); [by vm_compute..|].
  by exists qs4.
Defined.

(** C8, amended: a request whose [qty] is non-empty and does not read as an
    integer is never answered.  When the stages before the bound return, it
    ends with the uncaught [ValueError], [self.queryset] untouched by the
    last stage; an API exception it ends with was raised by one of those
    earlier stages.  With no [by_user] and no [by_serverid] it is the
    [ValueError]. *)
Theorem qty_unparsable_propagates request objects q :
  query_params request !! "qty" = Some q → q ≠ "" →
  python.int q = None →
  let base := ServerListViewSet.queryset objects in
  (∀ resp, (ServerListViewSet.list request base).2 ≠ inr resp)
  ∧ (∀ qs4, ServerListViewSet.stages_1_4 request base = (qs4, inr ()) →
       ServerListViewSet.list request base = (qs4, inl ValueError))
  ∧ (∀ e, (ServerListViewSet.list request base).2 = inl e →
       is_APIException e = true →
       (ServerListViewSet.stages_1_4 request base).2 = inl e)
  ∧ (query_params request !! "by_user" ≠ Some "true" →
     python.truthy (ServerListViewSet.by_serverid request) = false →
     (ServerListViewSet.list request base).2 = inl ValueError).
Proof.
  intros Hq Hne Hi base.
  assert (∀ qs4, ServerListViewSet.stages_1_4 request base = (qs4, inr ()) →
    ServerListViewSet.list request base = (qs4, inl ValueError)) as Hrun.
  { intros qs4 H4. unfold ServerListViewSet.list.
    rewrite (bind_returns _ _ _ _ _ H4). apply bind_raises.
    by apply (qty_stage_unparsable _ _ q). }
  split_and!; [| done | |].
  - intros resp Hr.
    destruct (ServerListViewSet.list request base) as [qs r] eqn:Hl.
    simpl in Hr. subst r.
    apply list_returns_inv in Hl as (_ & qs4 & H4 & H5 & _).
    by rewrite (qty_stage_unparsable _ _ q Hq Hne Hi) in H5.
  - intros e He Hapi.
    destruct (ServerListViewSet.stages_1_4 request base) as [qs4 [e'|[]]] eqn:H4.
    + unfold ServerListViewSet.list in He.
      rewrite (bind_raises _ _ _ _ _ H4) in He. simpl in *. congruence.
    + rewrite (Hrun qs4 eq_refl) in He. simpl in He.
      injection He as <-. discriminate Hapi.
  - intros Hb%by_user_false Hs.
    destruct (stages_1_3_returns request base Hb) as (qs1 & _ & H3).
    erewrite Hrun; [done|]. unfold ServerListViewSet.stages_1_4.
    rewrite (bind_returns _ _ _ _ _ H3). by apply by_serverid_stage_skips.
Qed.

Lemma qty_unparsable_propagates_witness :
  ServerListViewSet.list (samples.GET [("qty", "ten")] AnonymousUser)
    (ServerListViewSet.queryset samples.objects)
  = (ServerListViewSet.queryset samples.objects, inl ValueError).
Proof.
  by apply (qty_unparsable_propagates
    (samples.GET [("qty", "ten")] AnonymousUser) samples.objects "ten"
    ltac:(by vm_compute) ltac:(done) ltac:(by vm_compute)).
Defined.

(** C8 as stated fails twice over: [qty] sent with the empty string does not
    read as an integer and the request is answered; and a request whose
    [qty] does not read as an integer ends with [AuthenticationFailed] when
    an anonymous caller also sends [by_serverid]. *)
Lemma qty_unparsable_not_always_uncaught :
  (let request := samples.GET [("qty", "")] AnonymousUser in
   query_params request !! "qty" = Some "" ∧ python.int "" = None
   ∧ (ServerListViewSet.list request
        (ServerListViewSet.queryset samples.objects)).2
     = inr {| data := iter (all samples.objects);
              context_num_members := false |})
  ∧ (let request :=
       samples.GET [("qty", "abc"); ("by_serverid", "1")] AnonymousUser in
     query_params request !! "qty" = Some "abc" ∧ python.int "abc" = None
     ∧ (ServerListViewSet.list request
          (ServerListViewSet.queryset samples.objects)).2
       = inl AuthenticationFailed).
Proof. split_and!; by vm_compute. Qed.

(** C9, amended: a non-empty [category] narrows the table to exactly the
    servers whose category name is that string, character for character, and
    every object of a response is one of them.  When no server matches, the
    category stage still returns, a response holds no object, and a request
    with nothing but the category (and the annotation flag) is answered with
    the empty sequence. *)
Theorem category_narrows request objects c :
  query_params request !! "category" = Some c → c ≠ "" →
  let base := ServerListViewSet.queryset objects in
  ServerListViewSet.category_stage request base
  = (filter_category__name c base, inr ())
  ∧ (∀ s, s ∈ rows (filter_category__name c base)
          ↔ s ∈ objects ∧ category__name s = c)
  ∧ (∀ qs resp, ServerListViewSet.list request base = (qs, inr resp) →
       ∀ row, row ∈ data resp →
         instance row ∈ objects ∧ category__name (instance row) = c)
  ∧ ((∀ s, s ∈ objects → category__name s ≠ c) →
     (∀ qs resp, ServerListViewSet.list request base = (qs, inr resp) →
        data resp = [])
     ∧ (query_params request !! "by_user" ≠ Some "true" →
        python.truthy (ServerListViewSet.by_serverid request) = false →
        python.truthy (ServerListViewSet.qty request) = false →
        (ServerListViewSet.list request base).2
        = inr {| data := [];
                 context_num_members :=
                   ServerListViewSet.with_num_members request |})).
Proof.
  intros Hc Hne base.
  pose proof (category_stage_narrows request base c Hc Hne) as H1.
  assert (∀ s, s ∈ rows (filter_category__name c base)
               ↔ s ∈ objects ∧ category__name s = c) as Hrows.
  { intros s. unfold filter_category__name, narrow. simpl.
    rewrite list_elem_of_filter. tauto. }
  assert (∀ qs resp, ServerListViewSet.list request base = (qs, inr resp) →
    ∀ row, row ∈ data resp → instance row ∈ rows (filter_category__name c base))
    as Hin.
  { intros qs resp ((qs1 & H1' & Hr) & _ & _ & ->)%list_returns_shape row.
    fold base in H1'. rewrite H1 in H1'. injection H1' as <-.
    unfold iter. simpl. intros (s & -> & Hs)%list_elem_of_fmap.
    by apply (sublist_subseteq _ _ Hr). }
  assert ((∀ s, s ∈ objects → category__name s ≠ c) →
    rows (filter_category__name c base) = []) as Hempty.
  { intros Hnone. apply elem_of_nil_inv. intros s [Hs Hcat]%Hrows.
    by apply (Hnone s Hs). }
  split_and!; [done..| |].
  - intros qs resp Hl row Hrow. by apply Hrows, (Hin qs resp Hl).
  - intros Hnone. specialize (Hempty Hnone). split.
    + intros qs resp Hl. destruct (data resp) as [|row l] eqn:Hd; [done|].
      assert (instance row ∈ rows (filter_category__name c base)) as Hrow
        by (apply (Hin qs resp Hl); rewrite Hd; left).
      rewrite Hempty in Hrow. by apply not_elem_of_nil in Hrow.
    + intros Hb%by_user_false Hs Hq.
      destruct (stages_1_3_returns request base Hb) as (qs1 & H1' & H3).
      rewrite H1 in H1'. injection H1' as <-.
      set (qs3 := if ServerListViewSet.with_num_members request
                  then annotate_num_members (filter_category__name c base)
                  else filter_category__name c base) in H3.
      assert (ServerListViewSet.stages_1_4 request base = (qs3, inr ()))
        as H4.
      { unfold ServerListViewSet.stages_1_4.
        rewrite (bind_returns _ _ _ _ _ H3).
        by apply by_serverid_stage_skips. }
      unfold ServerListViewSet.list.
      rewrite (bind_returns _ _ _ _ _ H4).
      rewrite (bind_returns _ _ _ _ _ (qty_stage_skips _ _ Hq)).
      subst qs3.
      unfold ServerListViewSet.respond, mbind, view_bind, get_queryset,
        mret, view_ret, iter, annotate_num_members.
      destruct (ServerListViewSet.with_num_members request);
        cbn [rows snd]; by rewrite Hempty.
Qed.

Lemma category_narrows_witness :
  ServerListViewSet.category_stage
    (samples.GET [("category", "web")] AnonymousUser)
    (ServerListViewSet.queryset samples.objects)
  = (filter_category__name "web" (ServerListViewSet.queryset samples.objects),
     inr ())
  ∧ rows (filter_category__name "web"
            (ServerListViewSet.queryset samples.objects))
    = [samples.web1; samples.web3].
Proof.
  split; [|by vm_compute].
  by apply (category_narrows
    (samples.GET [("category", "web")] AnonymousUser) samples.objects "web"
    ltac:(by vm_compute) ltac:(done)).
Defined.

(** C9 as stated fails: [category] sent with the empty string narrows
    nothing.  No sample server has the empty category name, yet all three
    are in the response. *)
Lemma category_blank_narrows_nothing :
  let request := samples.GET [("category", "")] AnonymousUser in
  query_params request !! "category" = Some ""
  ∧ Forall (λ s, category__name s ≠ "") samples.objects
  ∧ ServerListViewSet.list request
      (ServerListViewSet.queryset samples.objects)
    = (all samples.objects,
       inr {| data := iter (all samples.objects);
              context_num_members := false |})
  ∧ length (iter (all samples.objects)) = 3%nat.
Proof. split_and!; [by vm_compute| |by vm_compute|done]. by repeat constructor. Qed.

(** Exact comparison tells ["Web"] from ["web"]. *)
Example category_is_case_sensitive :
  id <$> rows (filter_category__name "web" (all samples.objects)) = [1; 3]
  ∧ id <$> rows (filter_category__name "Web" (all samples.objects)) = [2].
Proof. split; by vm_compute. Qed.

(** C10: [category], [qty] or [by_serverid] sent with the empty string is
    as good as not sent.  The stage that reads it returns at once and leaves
    [self.queryset] alone, whoever the caller is, so a blank [by_serverid]
    from an anonymous caller raises nothing; and the whole method does what
    it does for the request without that parameter. *)
Theorem blank_parameter_is_absent request k :
  k ∈ ["category"; "qty"; "by_serverid"] →
  query_params request !! k = Some "" →
  (∀ qs, ServerListViewSet.list request qs
         = ServerListViewSet.list (without k request) qs)
  ∧ (k = "category" →
     ∀ qs, ServerListViewSet.category_stage request qs = (qs, inr ()))
  ∧ (k = "qty" →
     ∀ qs, ServerListViewSet.qty_stage request qs = (qs, inr ()))
  ∧ (k = "by_serverid" →
     ∀ qs, ServerListViewSet.by_serverid_stage request qs = (qs, inr ())).
Proof.
  intros Hk Hblank. split_and!.
  - intros qs.
    unfold ServerListViewSet.list, ServerListViewSet.stages_1_4,
      ServerListViewSet.stages_1_3, ServerListViewSet.category_stage,
      ServerListViewSet.by_user_stage,
      ServerListViewSet.with_num_members_stage,
      ServerListViewSet.by_serverid_stage, ServerListViewSet.qty_stage,
      ServerListViewSet.respond, ServerListViewSet.category,
      ServerListViewSet.qty, ServerListViewSet.by_user,
      ServerListViewSet.by_serverid, ServerListViewSet.with_num_members.
    rewrite without_user.
    repeat (apply elem_of_cons in Hk as [->|Hk]);
      [| | |by apply elem_of_nil in Hk];
      rewrite without_same, !without_other, Hblank by done; done.
  - intros -> qs. apply category_stage_skips.
    unfold ServerListViewSet.category. by rewrite Hblank.
  - intros -> qs. apply qty_stage_skips.
    unfold ServerListViewSet.qty. by rewrite Hblank.
  - intros -> qs. apply by_serverid_stage_skips.
    unfold ServerListViewSet.by_serverid. by rewrite Hblank.
Qed.

Lemma blank_parameter_is_absent_witness :
  ServerListViewSet.by_serverid_stage
    (samples.GET [("by_serverid", "")] AnonymousUser)
    (ServerListViewSet.queryset samples.objects)
  = (ServerListViewSet.queryset samples.objects, inr ()).
Proof.
  by apply (blank_parameter_is_absent
    (samples.GET [("by_serverid", "")] AnonymousUser) "by_serverid"
    ltac:(set_solver) ltac:(by vm_compute)).
Defined.

(** ** Outcomes of the stages, case by case *)

Lemma exists__true q : exists_ q = true ↔ ∃ s, s ∈ rows q.
Proof.
  unfold exists_. destruct (rows q) as [|s l]; split.
  - discriminate.
  - intros [s Hs]. by apply elem_of_nil in Hs.
  - intros _. exists s. left.
  - done.
Qed.

Lemma int_nonempty v n : python.int v = Some n → v ≠ "".
Proof. intros Hi ->. discriminate Hi. Qed.

Lemma category_stage_rows request objects qs1 :
  ServerListViewSet.category_stage request (ServerListViewSet.queryset objects)
  = (qs1, inr ()) →
  ∀ s, s ∈ rows qs1 ↔ s ∈ objects ∧ kept_by_category request s.
Proof.
  intros H1 s. unfold kept_by_category.
  destruct (python.truthy (ServerListViewSet.category request)) eqn:Ht.
  - destruct (ServerListViewSet.category request) as [c|] eqn:Hc; [|done].
    apply truthy_Some in Ht.
    rewrite (category_stage_narrows _ _ c Hc Ht) in H1.
    injection H1 as <-. unfold filter_category__name, narrow. simpl.
    rewrite list_elem_of_filter. split.
    + intros [Hcat Hs]. split; [done|]. by intros c' [= <-] _.
    + intros [Hs Hcat]. split; [|done]. by apply Hcat.
  - rewrite category_stage_skips in H1 by done. injection H1 as <-.
    simpl. split; [|by intros [? _]]. intros Hs. split; [done|].
    intros c Hc Hne. apply truthy_false in Ht as [Ht|Ht]; congruence.
Qed.

(** The first three stages return only without [by_user], and then with the
    rows the category stage keeps. *)
Lemma stages_1_3_rows request objects qs3 :
  ServerListViewSet.stages_1_3 request (ServerListViewSet.queryset objects)
  = (qs3, inr ()) →
  ServerListViewSet.by_user request = false
  ∧ annotated qs3 = ServerListViewSet.with_num_members request
  ∧ ∀ s, s ∈ rows qs3 ↔ s ∈ objects ∧ kept_by_category request s.
Proof.
  intros H3. destruct (ServerListViewSet.by_user request) eqn:Hb.
  { destruct (stages_1_3_by_user request
      (ServerListViewSet.queryset objects) Hb) as (qs1 & _ & H3').
    rewrite H3' in H3. discriminate. }
  destruct (stages_1_3_returns request
    (ServerListViewSet.queryset objects) Hb) as (qs1 & H1 & H3').
  rewrite H3' in H3. injection H3 as <-.
  pose proof (category_stage_narrowed _ _ _ H1) as [_ Ha].
  pose proof (category_stage_rows _ _ _ H1) as Hrows.
  by destruct (ServerListViewSet.with_num_members request).
Qed.

Lemma stages_1_4_after request qs qs3 :
  ServerListViewSet.stages_1_3 request qs = (qs3, inr ()) →
  ServerListViewSet.stages_1_4 request qs
  = ServerListViewSet.by_serverid_stage request qs3.
Proof.
  intros H3. unfold ServerListViewSet.stages_1_4.
  by rewrite (bind_returns _ _ _ _ _ H3).
Qed.

Lemma list_after_stages request qs qs4 :
  ServerListViewSet.stages_1_4 request qs = (qs4, inr ()) →
  ServerListViewSet.list request qs
  = match ServerListViewSet.qty_stage request qs4 with
    | (qs', inr _) =>
        (qs', inr {| data := iter qs';
                     context_num_members :=
                       ServerListViewSet.with_num_members request |})
    | (qs', inl e) => (qs', inl e)
    end.
Proof.
  intros H4. unfold ServerListViewSet.list.
  rewrite (bind_returns _ _ _ _ _ H4). unfold mbind at 1, view_bind at 1.
  by destruct (ServerListViewSet.qty_stage request qs4) as [qs' [e|[]]].
Qed.

(** The by-server-id stage ends in one of five ways. *)
Lemma by_serverid_stage_cases request qs :
  (python.truthy (ServerListViewSet.by_serverid request) = false
   ∧ ServerListViewSet.by_serverid_stage request qs = (qs, inr ()))
  ∨ ∃ v, ServerListViewSet.by_serverid request = Some v ∧ v ≠ "" ∧
    ((user request = AnonymousUser
      ∧ ServerListViewSet.by_serverid_stage request qs
        = (qs, inl AuthenticationFailed))
     ∨ (is_authenticated (user request) = true ∧ python.int v = None
        ∧ ServerListViewSet.by_serverid_stage request qs
          = (qs, inl (ValidationError "Server value error")))
     ∨ ∃ n, is_authenticated (user request) = true ∧ python.int v = Some n ∧
       (((∀ s, s ∈ rows qs → id s ≠ n)
         ∧ ServerListViewSet.by_serverid_stage request qs
           = (narrow (λ s, id s = n) qs,
              inl (ValidationError
                     ("Server with id " +:+ v +:+ " not found"))))
        ∨ ((∃ s, s ∈ rows qs ∧ id s = n)
           ∧ ServerListViewSet.by_serverid_stage request qs
             = (narrow (λ s, id s = n) qs, inr ())))).
Proof.
  destruct (python.truthy (ServerListViewSet.by_serverid request)) eqn:Ht.
  2: { left. split; [done|]. by apply by_serverid_stage_skips. }
  destruct (ServerListViewSet.by_serverid request) as [v|] eqn:Hv; [|done].
  apply truthy_Some in Ht. right. exists v. split_and!; [done..|].
  destruct (user request) as [|uid] eqn:Hu.
  { left. split; [done|]. by apply (by_serverid_stage_anonymous _ _ v). }
  assert (is_authenticated (user request) = true) as Ha by by rewrite Hu.
  right. destruct (python.int v) as [n|] eqn:Hi.
  2: { left. split_and!; [done..|].
       by apply (by_serverid_stage_unparsable _ _ v). }
  right. exists n. split_and!; [done..|].
  rewrite (by_serverid_stage_parsed _ _ v n Hv Ht Ha Hi).
  destruct (exists_ (narrow (λ s, id s = n) qs)) eqn:Hex.
  - right. split; [|done]. apply exists__true in Hex as [s Hs].
    unfold narrow in Hs. simpl in Hs.
    apply list_elem_of_filter in Hs as [Hid Hs]. by exists s.
  - left. split; [|done]. intros s Hs Hid.
    assert (exists_ (narrow (λ s, id s = n) qs) = true) as Hex'.
    { apply exists__true. exists s. unfold narrow. simpl.
      by apply list_elem_of_filter. }
    congruence.
Qed.

(** The quantity stage ends in one of five ways. *)
Lemma qty_stage_cases request qs :
  (python.truthy (ServerListViewSet.qty request) = false
   ∧ ServerListViewSet.qty_stage request qs = (qs, inr ()))
  ∨ ∃ q, ServerListViewSet.qty request = Some q ∧ q ≠ "" ∧
    ((python.int q = None
      ∧ ServerListViewSet.qty_stage request qs = (qs, inl ValueError))
     ∨ ∃ n, python.int q = Some n ∧
       ((n < 0
         ∧ ServerListViewSet.qty_stage request qs = (qs, inl ValueError))
        ∨ (max_limit < n
           ∧ ServerListViewSet.qty_stage request qs
             = (qs, inl DatabaseError))
        ∨ (0 ≤ n ≤ max_limit
           ∧ ServerListViewSet.qty_stage request qs
             = ({| rows := take (Z.to_nat n) (rows qs);
                   annotated := annotated qs |}, inr ())))).
Proof.
  destruct (python.truthy (ServerListViewSet.qty request)) eqn:Ht.
  2: { left. split; [done|]. by apply qty_stage_skips. }
  destruct (ServerListViewSet.qty request) as [q|] eqn:Hq; [|done].
  apply truthy_Some in Ht. right. exists q. split_and!; [done..|].
  destruct (python.int q) as [n|] eqn:Hi.
  2: { left. split; [done|]. by apply (qty_stage_unparsable _ _ q). }
  right. exists n. split; [done|].
  destruct (decide (n < 0)) as [Hn|Hn];
    [|destruct (decide (max_limit < n)) as [Hm|Hm]].
  - left. split; [done|]. by apply (qty_stage_negative _ _ q n).
  - right; left. split; [done|]. by apply (qty_stage_overflows _ _ q n).
  - do 2 right. split; [lia|].
    apply (qty_stage_slices _ _ q n); [done..|lia].
Qed.


(** Once the first four stages have returned, the quantity stage decides:
    the uncaught [ValueError], the database's refusal, or the response. *)
Lemma list_outcome_after request qs qs4 :
  ServerListViewSet.stages_1_4 request qs = (qs4, inr ()) →
  (qty_refused request
   ∧ ServerListViewSet.list request qs = (qs4, inl ValueError))
  ∨ (qty_overflows request
     ∧ ServerListViewSet.list request qs = (qs4, inl DatabaseError))
  ∨ (qty_passes request
     ∧ ∃ qs' resp, ServerListViewSet.list request qs = (qs', inr resp)).
Proof.
  intros H4. rewrite (list_after_stages _ _ _ H4).
  destruct (qty_stage_cases request qs4)
    as [[Ht ->]|(q & Hq & Hne & [[Hi ->]|(n & Hi &
         [[Hn ->]|[[Hn ->]|[Hn ->]]])])].
  - do 2 right. split; [by left|]. by eexists _, _.
  - left. split; [|done]. exists q. split_and!; [done..|]. by left.
  - left. split; [|done]. exists q. split_and!; [done..|]. right. by exists n.
  - right; left. split; [|done]. by exists q, n.
  - do 2 right. split; [|by eexists _, _]. right. by exists q, n.
Qed.

(** Every run of [list] over the table is one of seven cases. *)
Lemma list_outcome request objects :
  let run :=
    ServerListViewSet.list request (ServerListViewSet.queryset objects) in
  (query_params request !! "by_user" = Some "true"
   ∧ run.2 = inl AuthenticationFailed)
  ∨ (query_params request !! "by_user" ≠ Some "true" ∧
     ((python.truthy (ServerListViewSet.by_serverid request) = true
       ∧ user request = AnonymousUser
       ∧ run.2 = inl AuthenticationFailed)
      ∨ (∃ v, ServerListViewSet.by_serverid request = Some v ∧ v ≠ ""
           ∧ is_authenticated (user request) = true
           ∧ python.int v = None
           ∧ run.2 = inl (ValidationError "Server value error"))
      ∨ (∃ v n, ServerListViewSet.by_serverid request = Some v
           ∧ is_authenticated (user request) = true
           ∧ python.int v = Some n
           ∧ (∀ s, s ∈ objects → kept_by_category request s → id s ≠ n)
           ∧ run.2 = inl (ValidationError
                            ("Server with id " +:+ v +:+ " not found")))
      ∨ (by_serverid_passes request objects ∧ qty_refused request
         ∧ run.2 = inl ValueError)
      ∨ (by_serverid_passes request objects ∧ qty_overflows request
         ∧ run.2 = inl DatabaseError)
      ∨ (by_serverid_passes request objects ∧ qty_passes request
         ∧ ∃ qs resp, run = (qs, inr resp)))).
Proof.
  intros run. subst run.
  set (base := ServerListViewSet.queryset objects).
  destruct (ServerListViewSet.by_user request) eqn:Hb.
  { left. split; [by apply by_user_true|].
    destruct (stages_1_3_by_user request base Hb) as (qs1 & _ & H3).
    by rewrite (list_raises_early _ _ _ _ H3). }
  right. split; [by apply by_user_false|].
  destruct (stages_1_3_returns request base Hb) as (qs1 & _ & H3).
  set (qs3 := if ServerListViewSet.with_num_members request
              then annotate_num_members qs1 else qs1) in H3.
  destruct (stages_1_3_rows _ _ _ H3) as (_ & _ & Hrows).
  pose proof (stages_1_4_after _ _ _ H3) as H4.
  assert (∀ qs4, ServerListViewSet.stages_1_4 request base = (qs4, inr ()) →
    by_serverid_passes request objects →
    (by_serverid_passes request objects ∧ qty_refused request
     ∧ (ServerListViewSet.list request base).2 = inl ValueError)
    ∨ (by_serverid_passes request objects ∧ qty_overflows request
       ∧ (ServerListViewSet.list request base).2 = inl DatabaseError)
    ∨ (by_serverid_passes request objects ∧ qty_passes request
       ∧ ∃ qs resp, ServerListViewSet.list request base = (qs, inr resp)))
    as Hrest.
  { intros qs4 H4' Hp.
    destruct (list_outcome_after _ _ _ H4') as [[Hq Hl]|[[Hq Hl]|[Hq Hl]]].
    - left. by rewrite Hl.
    - right; left. by rewrite Hl.
    - by do 2 right. }
  destruct (by_serverid_stage_cases request qs3)
    as [[Ht Hs]|(v & Hv & Hne & [[Hu Hs]|[(Ha & Hi & Hs)|
         (n & Ha & Hi & [[Hnone Hs]|[(s & Hin & Hid) Hs]])]])].
  - do 3 right. apply (Hrest qs3); [by rewrite H4|by left].
  - left. split_and!; [by rewrite Hv; apply truthy_Some|done|].
    by rewrite (list_by_serverid_raises _ _ _ _ _ H3 Hs).
  - right; left. exists v. split_and!; [done..|].
    by rewrite (list_by_serverid_raises _ _ _ _ _ H3 Hs).
  - do 2 right; left. exists v, n. split_and!; [done..| |].
    + intros s Hin Hkept. apply Hnone, Hrows. by split.
    + by rewrite (list_by_serverid_raises _ _ _ _ _ H3 Hs).
  - do 3 right. apply (Hrest (narrow (λ s, id s = n) qs3));
      [by rewrite H4|].
    right. apply Hrows in Hin as [Hin Hkept]. by exists v, n, s.
Qed.

(** The cases exclude one another. *)
Section exclusive.
Variable request : Request.
Variable objects : list Server.

Lemma passes_authenticated :
  by_serverid_passes request objects →
  python.truthy (ServerListViewSet.by_serverid request) = true →
  is_authenticated (user request) = true.
Proof. intros [Ht|(v & n & s & _ & _ & Ha & _)] Ht'; congruence. Qed.

Lemma passes_parsed v :
  by_serverid_passes request objects →
  ServerListViewSet.by_serverid request = Some v → v ≠ "" →
  ∃ n s, python.int v = Some n ∧ s ∈ objects ∧ id s = n
         ∧ kept_by_category request s.
Proof.
  intros [Ht|(v' & n & s & Hv' & Hi & _ & Hs & Hid & Hk)] Hv Hne.
  - rewrite Hv in Ht. apply truthy_Some in Hne. congruence.
  - rewrite Hv in Hv'. injection Hv' as <-. by exists n, s.
Qed.




End exclusive.

(** ** More of what [list] does *)

(** X1: with [by_user=true] the method raises [AuthenticationFailed], for
    every caller, every other parameter and every queryset it starts from:
    such a request is never answered. *)
Theorem by_user_is_never_answered request qs :
  query_params request !! "by_user" = Some "true" →
  (ServerListViewSet.list request qs).2 = inl AuthenticationFailed
  ∧ ∀ resp, (ServerListViewSet.list request qs).2 ≠ inr resp.
Proof.
  intros Hb%by_user_true.
  destruct (stages_1_3_by_user request qs Hb) as (qs1 & _ & H3).
  rewrite (list_raises_early _ _ _ _ H3). by split.
Qed.

Lemma by_user_is_never_answered_witness :
  (ServerListViewSet.list
     (samples.GET [("by_user", "true"); ("with_num_members", "true");
                   ("qty", "2")] (AuthenticatedUser 8))
     (ServerListViewSet.queryset samples.objects)).2
  = inl AuthenticationFailed.
Proof.
  by apply (by_user_is_never_answered
    (samples.GET [("by_user", "true"); ("with_num_members", "true");
                  ("qty", "2")] (AuthenticatedUser 8))
    (ServerListViewSet.queryset samples.objects) ltac:(by vm_compute)).
Defined.

(** X2: [by_user] and [with_num_members] are compared with ["true"],
    letter for letter: any other value (["True"], ["1"], the empty string)
    is as good as not sent. *)
Theorem flag_other_than_true_is_absent request k :
  k ∈ ["by_user"; "with_num_members"] →
  query_params request !! k ≠ Some "true" →
  ∀ qs, ServerListViewSet.list request qs
        = ServerListViewSet.list (without k request) qs.
Proof.
  intros Hk Hne qs.
  unfold ServerListViewSet.list, ServerListViewSet.stages_1_4,
    ServerListViewSet.stages_1_3, ServerListViewSet.category_stage,
    ServerListViewSet.by_user_stage,
    ServerListViewSet.with_num_members_stage,
    ServerListViewSet.by_serverid_stage, ServerListViewSet.qty_stage,
    ServerListViewSet.respond, ServerListViewSet.category,
    ServerListViewSet.qty, ServerListViewSet.by_user,
    ServerListViewSet.by_serverid, ServerListViewSet.with_num_members.
  rewrite without_user.
  repeat (apply elem_of_cons in Hk as [->|Hk]);
    [| |by apply elem_of_nil in Hk];
    rewrite without_same, !without_other by done;
    by rewrite (bool_decide_eq_false_2 _ Hne).
Qed.

Lemma flag_other_than_true_is_absent_witness :
  ServerListViewSet.list
    (samples.GET [("with_num_members", "True")] AnonymousUser)
    (ServerListViewSet.queryset samples.objects)
  = ServerListViewSet.list
      (without "with_num_members"
         (samples.GET [("with_num_members", "True")] AnonymousUser))
      (ServerListViewSet.queryset samples.objects).
Proof.
  apply (flag_other_than_true_is_absent
    (samples.GET [("with_num_members", "True")] AnonymousUser)
    "with_num_members" ltac:(set_solver) ltac:(by vm_compute)).
Defined.

(** X3: the method reads the caller and five parameters, and nothing else
    of the request: two requests that agree on them are treated alike. *)
Theorem list_reads_five_parameters r r' :
  user r = user r' →
  (∀ k, k ∈ ["category"; "qty"; "by_user"; "by_serverid";
             "with_num_members"] →
        query_params r !! k = query_params r' !! k) →
  ∀ qs, ServerListViewSet.list r qs = ServerListViewSet.list r' qs.
Proof.
  intros Hu Hk qs.
  pose proof (Hk "category" ltac:(set_solver)) as H1.
  pose proof (Hk "qty" ltac:(set_solver)) as H2.
  pose proof (Hk "by_user" ltac:(set_solver)) as H3.
  pose proof (Hk "by_serverid" ltac:(set_solver)) as H4.
  pose proof (Hk "with_num_members" ltac:(set_solver)) as H5.
  unfold ServerListViewSet.list, ServerListViewSet.stages_1_4,
    ServerListViewSet.stages_1_3, ServerListViewSet.category_stage,
    ServerListViewSet.by_user_stage,
    ServerListViewSet.with_num_members_stage,
    ServerListViewSet.by_serverid_stage, ServerListViewSet.qty_stage,
    ServerListViewSet.respond, ServerListViewSet.category,
    ServerListViewSet.qty, ServerListViewSet.by_user,
    ServerListViewSet.by_serverid, ServerListViewSet.with_num_members.
  by rewrite Hu, H1, H2, H3, H4, H5.
Qed.

Lemma list_reads_five_parameters_witness :
  ServerListViewSet.list
    (samples.GET [("category", "web"); ("page", "2")] AnonymousUser)
    (ServerListViewSet.queryset samples.objects)
  = ServerListViewSet.list
      (samples.GET [("category", "web")] AnonymousUser)
      (ServerListViewSet.queryset samples.objects).
Proof.
  apply (list_reads_five_parameters
    (samples.GET [("category", "web"); ("page", "2")] AnonymousUser)
    (samples.GET [("category", "web")] AnonymousUser) eq_refl).
  intros k Hk.
  repeat (apply elem_of_cons in Hk as [->|Hk]);
    [by vm_compute..|by apply elem_of_nil in Hk].
Defined.

Lemma NoDup_constant (l : list Z) n :
  NoDup l → (∀ x, x ∈ l → x = n) → (length l ≤ 1)%nat.
Proof.
  intros Hnd Hall. destruct l as [|a [|b l]]; simpl; [lia..|].
  apply NoDup_cons in Hnd as [Ha _]. destruct Ha.
  rewrite (Hall a), (Hall b); [left|right; left|left].
Qed.



(** X5: a response to a request with a [by_serverid] that is true comes
    only for an authenticated caller and a value that reads as an integer;
    every server in it has that id and passed the category stage; it holds
    at least one server unless [qty] reads as 0, and at most one when the
    ids of the table are distinct. *)
Theorem by_serverid_answered request objects v qs resp :
  query_params request !! "by_serverid" = Some v → v ≠ "" →
  ServerListViewSet.list request (ServerListViewSet.queryset objects)
  = (qs, inr resp) →
  is_authenticated (user request) = true
  ∧ ∃ n, python.int v = Some n
    ∧ (∀ row, row ∈ data resp →
         id (instance row) = n ∧ kept_by_category request (instance row))
    ∧ ((∀ q, ServerListViewSet.qty request = Some q →
             python.int q ≠ Some 0) →
       data resp ≠ [])
    ∧ (NoDup (id <$> objects) → (length (data resp) ≤ 1)%nat).
Proof.
  intros Hv Hne Hl.
  pose proof (list_returns_shape _ _ _ _ Hl) as (_ & Hsub & _ & _).
  apply list_returns_inv in Hl as (Hb & qs4 & H4 & H5 & ->).
  destruct (stages_1_3_returns request
    (ServerListViewSet.queryset objects) Hb) as (qs1 & _ & H3).
  set (qs3 := if ServerListViewSet.with_num_members request
              then annotate_num_members qs1 else qs1) in H3.
  destruct (stages_1_3_rows _ _ _ H3) as (_ & _ & Hrows).
  rewrite (stages_1_4_after _ _ _ H3) in H4.
  destruct (by_serverid_stage_cases request qs3)
    as [[Ht _]|(v' & Hv' & _ & [[_ Hs]|[(_ & _ & Hs)|
         (n & Ha & Hi & [[_ Hs]|[(s & Hin & Hid) Hs]])]])];
    try (rewrite Hs in H4; discriminate).
  { unfold ServerListViewSet.by_serverid in Ht. rewrite Hv in Ht.
    apply truthy_Some in Hne. congruence. }
  unfold ServerListViewSet.by_serverid in Hv'. rewrite Hv in Hv'.
  injection Hv' as <-. rewrite Hs in H4. injection H4 as <-.
  split; [done|]. exists n. split; [done|].
  pose proof (qty_stage_narrowed _ _ _ H5) as [Hr5 _].
  assert (∀ s', s' ∈ rows qs → id s' = n ∧ kept_by_category request s')
    as Hall.
  { intros s' Hs'. apply (sublist_subseteq _ _ Hr5) in Hs'.
    unfold narrow in Hs'. simpl in Hs'.
    apply list_elem_of_filter in Hs' as [Hid' Hs'].
    split; [done|]. by apply Hrows in Hs' as [_ Hk]. }
  simpl. split_and!.
  - intros row (s' & -> & Hs')%list_elem_of_fmap. by apply Hall.
  - intros Hq0.
    assert (s ∈ filter (λ s, id s = n) (rows qs3)) as Hs'
      by by apply list_elem_of_filter.
    destruct (qty_stage_cases request (narrow (λ s, id s = n) qs3))
      as [[_ Hq]|(q & Hq & _ & [[_ Hq']|(m & Hi' &
           [[_ Hq']|[[_ Hq']|[Hm Hq']]])])];
      try (rewrite Hq' in H5; discriminate).
    + rewrite Hq in H5. injection H5 as <-. unfold iter, narrow. simpl.
      destruct (filter _ (rows qs3)); [by apply elem_of_nil in Hs'|done].
    + rewrite Hq' in H5. injection H5 as <-. unfold iter, narrow. simpl.
      assert (m ≠ 0) as Hm0 by (intros ->; by apply (Hq0 q)).
      destruct (filter _ (rows qs3)); [by apply elem_of_nil in Hs'|].
      destruct (Z.to_nat m) eqn:Hnat; [lia|done].
  - intros Hnd. unfold iter. rewrite length_fmap.
    rewrite <-(length_fmap id). apply (NoDup_constant _ n).
    + apply (sublist_NoDup _ _ Hnd). by apply fmap_sublist.
    + intros x (s' & -> & Hs')%list_elem_of_fmap. by apply Hall.
Qed.

Lemma by_serverid_answered_witness :
  ∃ n, python.int " 3 " = Some n
    ∧ ∀ row,
        row ∈ [ {| instance := samples.web3; num_members := None |} ] →
        id (instance row) = n.
Proof.
  destruct (by_serverid_answered
    (samples.GET [("by_serverid", " 3 ")] (AuthenticatedUser 7))
    samples.objects " 3 "
    {| rows := [samples.web3]; annotated := false |}
    {| data := [ {| instance := samples.web3; num_members := None |} ];
       context_num_members := false |})
    as (_ & n & Hi & Hall & _); [by vm_compute|done|by vm_compute|].
  exists n. split; [done|]. intros row Hrow. by apply Hall.
Defined.


(** X7: [AuthenticationFailed] is raised exactly for [by_user=true], by any
    caller, and for a [by_serverid] that is true from an anonymous caller. *)
Theorem authentication_failed_iff request objects :
  (ServerListViewSet.list request (ServerListViewSet.queryset objects)).2
  = inl AuthenticationFailed
  ↔ query_params request !! "by_user" = Some "true"
    ∨ (python.truthy (ServerListViewSet.by_serverid request) = true
       ∧ user request = AnonymousUser).
Proof.
  pose proof (list_outcome request objects) as Hcases. simpl in Hcases.
  split.
  - intros Hl. rewrite Hl in Hcases.
    destruct Hcases as [[Hb _]|[_ [(Ht & Hu & _)|[(v & _ & _ & _ & _ & ?)|
      [(v & n & _ & _ & _ & _ & ?)|[(_ & _ & ?)|[(_ & _ & ?)|
        (_ & _ & qs & resp & Hr)]]]]]]]; try discriminate.
    + by left.
    + by right.
    + rewrite (surjective_pairing (ServerListViewSet.list _ _)) in Hr.
      rewrite Hl in Hr. discriminate.
  - intros Hcond.
    destruct Hcases as [[_ Hl]|[Hb [(_ & _ & Hl)|[(v & Hv & Hne & Ha & _)|
      [(v & n & Hv & Ha & Hi & _)|[(Hp & _)|[(Hp & _)|(Hp & _)]]]]]]];
      [done..| | | | |];
      destruct Hcond as [Hb'|[Ht Hu]]; try done.
    + rewrite Hu in Ha. discriminate.
    + rewrite Hu in Ha. discriminate.
    + pose proof (passes_authenticated _ _ Hp Ht) as Ha.
      rewrite Hu in Ha. discriminate.
    + pose proof (passes_authenticated _ _ Hp Ht) as Ha.
      rewrite Hu in Ha. discriminate.
    + pose proof (passes_authenticated _ _ Hp Ht) as Ha.
      rewrite Hu in Ha. discriminate.
Qed.

(** X8: for a [by_serverid] that, when it reads as an integer, reads as one
    the database can hold (a signed 64-bit integer), [ValidationError] is
    raised exactly for a request without [by_user=true] from an
    authenticated caller whose [by_serverid] is true and either does not
    read as an integer (detail ["Server value error"]) or reads as an id
    that no server kept by the category stage has (detail
    ["Server with id ... not found"], with the value as it was sent). *)
Theorem validation_error_iff request objects detail :
  (∀ v n, ServerListViewSet.by_serverid request = Some v →
          python.int v = Some n → - 2 ^ 63 ≤ n ≤ max_limit) →
  (ServerListViewSet.list request (ServerListViewSet.queryset objects)).2
  = inl (ValidationError detail)
  ↔ query_params request !! "by_user" ≠ Some "true"
    ∧ is_authenticated (user request) = true
    ∧ ∃ v, ServerListViewSet.by_serverid request = Some v ∧ v ≠ "" ∧
      ((python.int v = None ∧ detail = "Server value error")
       ∨ ∃ n, python.int v = Some n
           ∧ (∀ s, s ∈ objects → kept_by_category request s → id s ≠ n)
           ∧ detail = "Server with id " +:+ v +:+ " not found").
Proof.
  intros _.
  pose proof (list_outcome request objects) as Hcases. simpl in Hcases.
  split.
  - intros Hl. rewrite Hl in Hcases.
    destruct Hcases as [[_ ?]|[Hb [(_ & _ & ?)|[(v & Hv & Hne & Ha & Hi & Hd)|
      [(v & n & Hv & Ha & Hi & Hnone & Hd)|[(_ & _ & ?)|[(_ & _ & ?)|
        (_ & _ & qs & resp & Hr)]]]]]]]; try discriminate.
    + injection Hd as ->. split_and!; [done..|]. exists v.
      split_and!; [done..|]. by left.
    + injection Hd as ->. split_and!; [done..|]. exists v.
      split_and!; [done|by apply (int_nonempty _ n)|]. right. by exists n.
    + rewrite (surjective_pairing (ServerListViewSet.list _ _)) in Hr.
      rewrite Hl in Hr. discriminate.
  - intros (Hb & Ha & v & Hv & Hne & Hcond).
    assert (python.truthy (ServerListViewSet.by_serverid request) = true)
      as Ht by (rewrite Hv; by apply truthy_Some).
    assert (by_serverid_passes request objects → False) as Hnot.
    { intros Hp.
      destruct (passes_parsed _ _ v Hp Hv Hne) as (n & s & Hi & Hs & Hid & Hk).
      destruct Hcond as [[Hi' _]|(n' & Hi' & Hnone & _)]; [congruence|].
      rewrite Hi in Hi'. injection Hi' as <-. by destruct (Hnone s Hs Hk). }
    destruct Hcases as [[Hb' _]|[_ [(_ & Hu & _)|[(v' & Hv' & _ & _ & Hi & Hl)|
      [(v' & n & Hv' & _ & Hi & Hnone & Hl)|[(Hp & _)|[(Hp & _)|
        (Hp & _)]]]]]]]; try by destruct (Hnot Hp).
    + done.
    + rewrite Hu in Ha. discriminate.
    + rewrite Hv in Hv'. injection Hv' as <-.
      destruct Hcond as [[_ ->]|(n & Hi' & _)]; [done|congruence].
    + rewrite Hv in Hv'. injection Hv' as <-.
      destruct Hcond as [[Hi' _]|(n' & _ & _ & ->)]; [congruence|done].
Qed.

Lemma validation_error_iff_witness :
  (ServerListViewSet.list
     (samples.GET [("category", "web"); ("by_serverid", " 2 ")]
        (AuthenticatedUser 7))
     (ServerListViewSet.queryset samples.objects)).2
  = inl (ValidationError "Server with id  2  not found")
  ↔ query_params
      (samples.GET [("category", "web"); ("by_serverid", " 2 ")]
         (AuthenticatedUser 7)) !! "by_user" ≠ Some "true"
    ∧ is_authenticated (AuthenticatedUser 7) = true
    ∧ ∃ v, Some " 2 " = Some v ∧ v ≠ "" ∧
      ((python.int v = None
        ∧ "Server with id  2  not found" = "Server value error")
       ∨ ∃ n, python.int v = Some n
           ∧ (∀ s, s ∈ samples.objects →
                kept_by_category
                  (samples.GET [("category", "web"); ("by_serverid", " 2 ")]
                     (AuthenticatedUser 7)) s →
                id s ≠ n)
           ∧ "Server with id  2  not found"
             = "Server with id " +:+ v +:+ " not found").
Proof.
  apply (validation_error_iff
    (samples.GET [("category", "web"); ("by_serverid", " 2 ")]
       (AuthenticatedUser 7))
    samples.objects "Server with id  2  not found").
  intros v n [= <-] [= <-]. by vm_compute.
Defined.


(** ** The annotation changes nothing but the counts and, possibly, the order *)

Section annotation.
Variable request : Request.




End annotation.


